(** * azkaban_cli.azkaban: the [Azkaban] session manager

    A shallow embedding of [src/azkaban_cli/azkaban.py].  The class holds a
    private pair [(__host, __session_id)]; [login] fills it from the server's
    answer, [logout] clears it, and [upload], [schedule] and [execute] send one
    request each once a session is held.

    Everything the methods do to the outside (requests, log records, the zip
    archive) is recorded in a chronological trace, so that statements such as
    "no request is sent" or "the archive is removed before the answer is read"
    are statements about that trace. *)

From stdpp Require Import gmap strings list.
From Equations Require Import Equations.
From Stdlib Require Import Ascii String.

(** ** Python values

    The values that reach the class: [None], and whatever [Response.json()]
    can produce.  [JFloat m e] stands for the double [m * 2^e]; the class only
    stores, logs and compares values, so no arithmetic on them is needed. *)

#[warnings="-register-all"]
Inductive pyval : Type :=
| JNull
| JBool (b : bool)
| JInt (n : Z)
| JFloat (m e : Z)
| JStr (s : string)
| JArr (l : list pyval)
| JObj (d : gmap string pyval).

(** [bool(v)], as used by [if not v]. *)
Definition truthy (v : pyval) : bool :=
  match v with
  | JNull => false
  | JBool b => b
  | JInt n => negb (Z.eqb n 0)
  | JFloat m _ => negb (Z.eqb m 0)
  | JStr s => negb (String.eqb s "")
  | JArr l => negb (bool_decide (l = []))
  | JObj d => negb (bool_decide (d = ∅))
  end.

(** [v == s] for a string literal [s]: only a string equals a string. *)
Definition eq_str (v : pyval) (s : string) : bool :=
  match v with
  | JStr t => String.eqb t s
  | _ => false
  end.

(** [v is not None] *)
Definition present (v : pyval) : bool :=
  match v with
  | JNull => false
  | _ => true
  end.

(** An optional string argument ([project=None], [zip_name=None]) under
    [if not x]: [None] and the empty string are both falsy. *)
Definition supplied (x : option string) : bool :=
  match x with
  | Some s => negb (String.eqb s "")
  | None => false
  end.

(** ** Strings

    Python strings are sequences of code points, [string] is a sequence of
    bytes.  The class only looks for the character ['/'], and in UTF-8 the byte
    0x2F never occurs inside a multi-byte sequence, so cutting at that byte is
    cutting at that character. *)

(** [s.endswith(c)] for a one-character [c] *)
Fixpoint endswith (s : string) (c : ascii) : bool :=
  match s with
  | EmptyString => false
  | String a EmptyString => Ascii.eqb a c
  | String _ rest => endswith rest c
  end.

(** [s.startswith(c)] for a one-character [c] *)
Definition startswith (s : string) (c : ascii) : bool :=
  match s with
  | EmptyString => false
  | String a _ => Ascii.eqb a c
  end.

(** [s[:-1]] *)
Fixpoint drop_last (s : string) : string :=
  match s with
  | EmptyString => EmptyString
  | String _ EmptyString => EmptyString
  | String a rest => String a (drop_last rest)
  end.

(** [c * k] *)
Fixpoint replicate_char (k : nat) (c : ascii) : string :=
  match k with
  | O => EmptyString
  | S k' => String c (replicate_char k' c)
  end.

Definition inspect {A} (a : A) : {b | a = b} := exist _ a eq_refl.

(** [Azkaban.__validate_host]: the [while] loop shortens [valid_host] by one
    character per turn, so it is defined by recursion on the length. *)
Equations? __validate_host (host : string) : string
  by wf (String.length host) lt :=
  __validate_host valid_host with inspect (endswith valid_host "/") => {
    | exist _ true _ := __validate_host (drop_last valid_host);
    | exist _ false _ := valid_host }.
Proof.
  match goal with H : endswith ?s _ = true |- _ => revert H; clear end.
  induction valid_host as [|a [|b r] IH]; cbn in *; try done; try lia.
  intros H. specialize (IH H). lia.
Qed.

(** ** [os.path] on POSIX

    [os.path.abspath] and [os.path.basename] are the standard library's; they
    are pure string functions, written out here after [posixpath.py] so that
    [upload]'s default project name can be computed. *)

Module posixpath.

(** [s.split(sep)] for a one-character [sep]: never empty. *)
Fixpoint split (sep : ascii) (s : string) : list string :=
  match s with
  | EmptyString => [EmptyString]
  | String c rest =>
      if Ascii.eqb c sep then EmptyString :: split sep rest
      else match split sep rest with
           | h :: t => String c h :: t
           | [] => [String c EmptyString]
           end
  end.

(** [sep.join(comps)] *)
Fixpoint join_with (sep : string) (comps : list string) : string :=
  match comps with
  | [] => ""
  | [c] => c
  | c :: rest => c +:+ sep +:+ join_with sep rest
  end.

(** [isabs(s)]: [s.startswith('/')] *)
Definition isabs (s : string) : bool := startswith s "/".

(** [basename(p)]: [p[p.rfind('/') + 1:]], what follows the last slash. *)
Definition basename (p : string) : string :=
  List.last (split "/" p) "".

(** [join(a, b)] for two arguments *)
Definition join (a b : string) : string :=
  if startswith b "/" then b
  else if String.eqb a "" || endswith a "/" then a +:+ b
  else a +:+ "/" +:+ b.

(** One turn of [normpath]'s loop over the components. *)
Definition normpath_step (initial_slashes : nat) (new_comps : list string)
    (comp : string) : list string :=
  if String.eqb comp "" || String.eqb comp "." then new_comps
  else if negb (String.eqb comp "..")
          || (Nat.eqb initial_slashes 0 && bool_decide (new_comps = []))
          || (negb (bool_decide (new_comps = []))
              && String.eqb (List.last new_comps "") "..")
       then new_comps ++ [comp]
  else List.removelast new_comps.

Definition normpath (path : string) : string :=
  if String.eqb path "" then "." else
  let initial_slashes :=
    if startswith path "/" then
      match path with
      | String _ (String b rest) =>
          if Ascii.eqb b "/" && negb (startswith rest "/") then 2 else 1
      | _ => 1
      end
    else 0 in
  let comps := fold_left (normpath_step initial_slashes) (split "/" path) [] in
  let path := replicate_char initial_slashes "/" +:+ join_with "/" comps in
  if String.eqb path "" then "." else path.

(** [abspath(path)], with [os.getcwd()] passed in. *)
Definition abspath (cwd path : string) : string :=
  normpath (if isabs path then path else join cwd path).

End posixpath.

(** ** The world around the object *)

(** The private attributes [self.__host] and [self.__session_id].
    ([self.__session], the [requests.Session] with [verify = False], carries no
    data the methods read; it is the first argument of every request.) *)
Record Azkaban := {
  __host : pyval;
  __session_id : pyval
}.

(** The four calls into [azkaban_cli.api], with their arguments after the
    session object. *)
Inductive request :=
| login_request (host user password : string)
| upload_request (host session_id : pyval) (project zip_path : string)
| schedule_request (host session_id : pyval) (project flow cron : string)
| execute_request (host session_id : pyval) (project flow : string).

(** The exceptions that occur.  [ConnectionError] is
    [requests.exceptions.ConnectionError]; [ReadTimeout] and [JSONDecodeError]
    are other ways for [api.x_request(...).json()] to fail;
    [FileNotFoundError], [NotADirectoryError], [IsADirectoryError] and
    [PermissionError] are what the file system can answer. *)
Inductive exn :=
| ConnectionError
| ReadTimeout
| JSONDecodeError
| FileNotFoundError
| NotADirectoryError
| IsADirectoryError
| PermissionError
| AttributeError
| KeyError (key : string).

(** What a call of [shutil.make_archive] comes to: the exception it raises
    or the path of the archive it returns, and in both cases the directories
    and files other than the archive that it leaves behind (it may have
    created the directory in which the archive is to be written). *)
Inductive archive_outcome :=
| ArchiveRaises (e : exn) (dirs' files' : gset string)
| ArchiveReturns (zip_path : string) (dirs' files' : gset string).

(** The disk as the class meets it: the working directory, the directories
    and regular files that exist, by absolute normalised path, and the way
    [shutil.make_archive(base_name, 'zip', root_dir)] acts on a working
    directory, directories and files.  That last part is the standard
    library's and the operating system's: which failures it has, and whether
    a missing [root_dir] is one of them, differs between CPython releases, so
    it is given with the disk and nothing is assumed about it. *)
Record filesystem := {
  cwd : string;
  dirs : gset string;
  files : gset string;
  archiver : string → gset string → gset string →
             string → string → archive_outcome
}.

(** [shutil.make_archive(base_name, 'zip', root_dir)] on the disk as it is. *)
Definition archiving (fs : filesystem) (base_name root_dir : string)
    : archive_outcome :=
  archiver fs (cwd fs) (dirs fs) (files fs) base_name root_dir.
Arguments archiving : simpl never.

(** What [api.x_request(...).json()] evaluates to. *)
Inductive reply :=
| Raises (e : exn)
| Json (response_json : pyval).

Inductive level := ERROR | INFO.

(** A log record: the logged object itself, a format string applied with [%]
    to its arguments, or [str(e)] of a caught exception. *)
Inductive message :=
| MsgObj (v : pyval)
| MsgFormat (fmt : string) (args : list pyval)
| MsgExn (e : exn).

Inductive event :=
| EvRequest (r : request)
| EvLog (lvl : level) (msg : message)
| EvMakeArchive (base_name format root_dir : string)
| EvRemove (path : string).

Record world := {
  self : Azkaban;
  disk : filesystem;
  trace : list event
}.

(** The requests of a trace, in order. *)
Definition requests_of (t : list event) : list request :=
  omap (λ e, match e with EvRequest r => Some r | _ => None end) t.

(** The archive attempts of a trace, as [(base_name, root_dir)]. *)
Definition archives_of (t : list event) : list (string * string) :=
  omap (λ e, match e with EvMakeArchive b _ r => Some (b, r) | _ => None end) t.


(** ** Statements that may raise *)

Inductive result (A : Type) :=
| Return (a : A)
| Raise (e : exn).
Arguments Return {A} a.
Arguments Raise {A} e.

(** A method body: it runs in a world and leaves a world, whether it returns
    or raises. *)
Definition M (A : Type) : Type := world → result A * world.

Definition raise {A} (e : exn) : M A := λ w, (Raise e, w).

#[global] Instance M_ret : MRet M := λ A a w, (Return a, w).
#[global] Instance M_bind : MBind M := λ A B k m w,
  match m w with
  | (Return a, w') => k a w'
  | (Raise e, w') => (Raise e, w')
  end.

(** [try: body / except E: handler] for the exceptions [E] accepts. *)
Definition try_except {A} (body : M A) (E : exn → bool) (handler : exn → M A)
    : M A :=
  λ w, match body w with
       | (Raise e, w') => if E e then handler e w' else (Raise e, w')
       | r => r
       end.

Definition emit (e : event) : M unit :=
  λ w, (Return tt, {| self := self w; disk := disk w; trace := trace w ++ [e] |}).

Definition logging_error (msg : message) : M unit := emit (EvLog ERROR msg).
Definition logging_info (msg : message) : M unit := emit (EvLog INFO msg).

Definition read_host : M pyval := λ w, (Return (__host (self w)), w).
Definition read_session_id : M pyval := λ w, (Return (__session_id (self w)), w).

(** [d[key]] *)
Definition subscript (d : gmap string pyval) (key : string) : M pyval :=
  match d !! key with
  | Some v => mret v
  | None => raise (KeyError key)
  end.

(** [response_json.keys()] exists on a dict only; the dict is handed on for
    the membership test and the subscripts that follow. *)
Definition keys (response_json : pyval) : M (gmap string pyval) :=
  match response_json with
  | JObj d => mret d
  | _ => raise AttributeError
  end.

(** [u'error' in d.keys()] *)
Definition has_key (d : gmap string pyval) (key : string) : bool :=
  bool_decide (is_Some (d !! key)).

(** The request layer: [api.x_request(self.__session, ...).json()].  The
    module [azkaban_cli.api] and the server behind it are outside the class;
    [api] gives the outcome of each request. *)
Definition call_api (api : request → reply) (r : request) : M pyval :=
  emit (EvRequest r);;
  match api r with
  | Raises e => raise e
  | Json v => mret v
  end.

(** [os.path.basename(os.path.abspath(path))] *)
Definition basename_abspath (path : string) : M string :=
  λ w, (Return (posixpath.basename (posixpath.abspath (cwd (disk w)) path)), w).

(** [shutil.make_archive(base_name, 'zip', root_dir)]: what the library does
    is the disk's [archiver]; when it returns, the archive is a file at the
    path it returns.  The working directory is the same afterwards. *)
Definition make_archive (base_name root_dir : string) : M string :=
  emit (EvMakeArchive base_name "zip" root_dir);;
  (λ w,
    let fs := disk w in
    match archiving fs base_name root_dir with
    | ArchiveRaises e dirs' files' =>
        (Raise e,
         {| self := self w;
            disk := {| cwd := cwd fs; dirs := dirs'; files := files';
                       archiver := archiver fs |};
            trace := trace w |})
    | ArchiveReturns zip_path dirs' files' =>
        (Return zip_path,
         {| self := self w;
            disk := {| cwd := cwd fs; dirs := dirs';
                       files := files' ∪ {[posixpath.abspath (cwd fs) zip_path]};
                       archiver := archiver fs |};
            trace := trace w |})
    end) : M string.

(** [os.remove(path)] *)
Definition os_remove (path : string) : M unit :=
  emit (EvRemove path);;
  (λ w,
    let fs := disk w in
    let p := posixpath.abspath (cwd fs) path in
    if bool_decide (p ∈ files fs) then
      (Return tt,
       {| self := self w;
          disk := {| cwd := cwd fs; dirs := dirs fs; files := files fs ∖ {[p]};
                     archiver := archiver fs |};
          trace := trace w |})
    else (Raise FileNotFoundError, w)) : M unit.

(** ** The methods of [Azkaban] *)

(** [Azkaban.__init__]: both attributes start as [None]; nothing has happened
    yet. *)
Definition __init__ (fs : filesystem) : world :=
  {| self := {| __host := JNull; __session_id := JNull |};
     disk := fs;
     trace := [] |}.

(** [Azkaban.get_logged_session]: a fresh dict of the two attributes. *)
Definition get_logged_session : M (gmap string pyval) :=
  host ← read_host;
  session_id ← read_session_id;
  let logged_session : gmap string pyval :=
    {[ "host" := host; "session_id" := session_id ]} in
  mret logged_session.

(** [Azkaban.set_logged_session] *)
Definition set_logged_session (host session_id : pyval) : M unit :=
  λ w, (Return tt,
        {| self := {| __host := host; __session_id := session_id |};
           disk := disk w;
           trace := trace w |}).

(** [Azkaban.logout] *)
Definition logout : M unit :=
  set_logged_session JNull JNull.

Definition is_ConnectionError (e : exn) : bool :=
  match e with ConnectionError => true | _ => false end.

Definition is_FileNotFoundError (e : exn) : bool :=
  match e with FileNotFoundError => true | _ => false end.

(** [Azkaban.login].  The [try] covers the request only; [None] from it stands
    for the [return False] of the [except] branch. *)
Definition login (api : request → reply) (host user password : string)
    : M bool :=
  let valid_host := __validate_host host in
  attempt ← try_except
    (response_json ← call_api api (login_request valid_host user password);
     mret (Some response_json))
    is_ConnectionError
    (λ _, logging_error (MsgObj (JStr "Could not connect to host"));;
          mret None);
  match attempt with
  | None => mret false
  | Some response_json =>
      d ← keys response_json;
      if has_key d "error" then
        error_msg ← subscript d "error";
        logging_error (MsgObj error_msg);;
        mret false
      else
        session_id ← subscript d "session.id";
        set_logged_session (JStr valid_host) session_id;;
        logging_info (MsgFormat "Logged as %s" [JStr user]);;
        mret true
  end.

(** [Azkaban.upload] *)
Definition upload (api : request → reply) (path : string)
    (project zip_name : option string) : M bool :=
  session_id ← read_session_id;
  if negb (truthy session_id) then
    logging_error (MsgObj (JStr "You are not logged"));;
    mret false
  else
    project ← (if supplied project then mret (default "" project)
               else basename_abspath path);
    let zip_name := if supplied zip_name then default "" zip_name else project in
    attempt ← try_except
      (zip_path ← make_archive zip_name path;
       mret (Some zip_path))
      is_FileNotFoundError
      (λ e, logging_error (MsgExn e);;
            mret None);
    match attempt with
    | None => mret false
    | Some zip_path =>
        host ← read_host;
        session_id ← read_session_id;
        response_json ← call_api api (upload_request host session_id project zip_path);
        os_remove zip_path;;
        d ← keys response_json;
        if has_key d "error" then
          error_msg ← subscript d "error";
          logging_error (MsgObj error_msg);;
          mret false
        else
          version ← subscript d "version";
          logging_info (MsgFormat "Project %s updated to version %s"
                          [JStr project; version]);;
          mret true
    end.

(** [Azkaban.schedule] *)
Definition schedule (api : request → reply) (project flow cron : string)
    : M bool :=
  session_id ← read_session_id;
  if negb (truthy session_id) then
    logging_error (MsgObj (JStr "You are not logged"));;
    mret false
  else
    host ← read_host;
    session_id ← read_session_id;
    response_json ← call_api api (schedule_request host session_id project flow cron);
    d ← keys response_json;
    if has_key d "error" then
      error_msg ← subscript d "error";
      logging_error (MsgObj error_msg);;
      mret false
    else
      status ← subscript d "status";
      if eq_str status "error" then
        message ← subscript d "message";
        logging_error (MsgObj message);;
        mret false
      else
        message ← subscript d "message";
        logging_info (MsgObj message);;
        schedule_id ← subscript d "scheduleId";
        logging_info (MsgFormat "scheduleId: %s" [schedule_id]);;
        mret true.

(** [Azkaban.execute] *)
Definition execute (api : request → reply) (project flow : string) : M bool :=
  session_id ← read_session_id;
  if negb (truthy session_id) then
    logging_error (MsgObj (JStr "You are not logged"));;
    mret false
  else
    host ← read_host;
    session_id ← read_session_id;
    response_json ← call_api api (execute_request host session_id project flow);
    d ← keys response_json;
    if has_key d "error" then
      error_msg ← subscript d "error";
      logging_error (MsgObj error_msg);;
      mret false
    else
      message ← subscript d "message";
      logging_info (MsgFormat "%s" [message]);;
      mret true.

(** ** What is observed of a call *)

(** The log record of the guard of [upload], [schedule] and [execute]. *)
Definition not_logged : event :=
  EvLog ERROR (MsgObj (JStr "You are not logged")).

(** A world differing from [w] only by the events [es] appended to the
    trace. *)
Definition after (w : world) (es : list event) : world :=
  {| self := self w; disk := disk w; trace := trace w ++ es |}.

(** An operation was turned away without talking to the server: it returned
    [False] and the requests of the trace are those of before the call. *)
Definition rejected_without_request (w : world) (out : result bool * world)
    : Prop :=
  out.1 = Return false ∧ requests_of (trace out.2) = requests_of (trace w).

(** The names [upload] settles on before it builds the archive. *)
Definition project_in_use (w : world) (path : string) (project : option string)
    : string :=
  if supplied project then default "" project
  else posixpath.basename (posixpath.abspath (cwd (disk w)) path).

Definition archive_name (w : world) (path : string)
    (project zip_name : option string) : string :=
  if supplied zip_name then default "" zip_name
  else project_in_use w path project.

(** ** The life of an object *)

(** A call of a public method, with its arguments. *)
Inductive call :=
| call_get_logged_session
| call_set_logged_session (host session_id : pyval)
| call_logout
| call_login (host user password : string)
| call_upload (path : string) (project zip_name : option string)
| call_schedule (project flow cron : string)
| call_execute (project flow : string).

(** The world after a call, whether the method returned or raised: the
    object lives on either way. *)
Definition run (api : request → reply) (c : call) (w : world) : world :=
  match c with
  | call_get_logged_session => (get_logged_session w).2
  | call_set_logged_session host session_id =>
      (set_logged_session host session_id w).2
  | call_logout => (logout w).2
  | call_login host user password => (login api host user password w).2
  | call_upload path project zip_name => (upload api path project zip_name w).2
  | call_schedule project flow cron => (schedule api project flow cron w).2
  | call_execute project flow => (execute api project flow w).2
  end.

(** The worlds an object can be in: fresh from [__init__], or one call
    further, against any behaviour of the server, for the calls [allowed]. *)
Inductive reachable_by (allowed : (request → reply) → call → Prop)
    : world → Prop :=
| reachable_init (fs : filesystem) : reachable_by allowed (__init__ fs)
| reachable_step (api : request → reply) (c : call) (w : world) :
    reachable_by allowed w →
    allowed api c →
    reachable_by allowed (run api c w).

(** Every call, every server. *)
Definition reachable : world → Prop := reachable_by (λ _ _, True).

(** Host and session id are both present or both absent. *)
Definition paired (a : Azkaban) : Prop :=
  present (__host a) = present (__session_id a).

(** The calls that cannot split the pair: [set_logged_session] with two
    values that are both present or both absent, [login] against a server
    that does not answer with a null ['session.id'], and all the others. *)
Definition keeps_pair (api : request → reply) (c : call) : Prop :=
  match c with
  | call_set_logged_session host session_id =>
      present host = present session_id
  | call_login host user password =>
      ∀ d : gmap string pyval,
        api (login_request (__validate_host host) user password) = Json (JObj d) →
        d !! "session.id" ≠ Some JNull
  | _ => True
  end.

(** ** Stub servers and worlds used to instantiate the theorems *)

Module stub.

(** A server that accepts every request. *)
Definition accepting (r : request) : reply :=
  match r with
  | login_request _ _ _ => Json (JObj {[ "session.id" := JStr "abc123" ]})
  | upload_request _ _ _ _ => Json (JObj {[ "version" := JStr "7" ]})
  | schedule_request _ _ _ _ _ =>
      Json (JObj {[ "status" := JStr "success";
                    "message" := JStr "proj1.flow1 scheduled.";
                    "scheduleId" := JStr "42" ]})
  | execute_request _ _ _ _ =>
      Json (JObj {[ "message" := JStr "Execution submitted" ]})
  end.

(** A server that answers every request with an API-level error. *)
Definition refusing (r : request) : reply :=
  Json (JObj {[ "error" := JStr "Incorrect Login." ]}).

(** A server that cannot be reached. *)
Definition unreachable (r : request) : reply := Raises ConnectionError.


(** A server that rejects the cron expression of a schedule request. *)
Definition bad_cron (r : request) : reply :=
  Json (JObj {[ "status" := JStr "error"; "message" := JStr "bad cron" ]}).

(** A server that hands out a null session id. *)
Definition null_session (r : request) : reply :=
  Json (JObj {[ "session.id" := JNull ]}).

(** A library that looks at [root_dir] first, as the releases of CPython do
    that enter or inspect it before archiving, and that writes the archive
    [base_name + '.zip'] in place, returning its absolute path. *)
Definition shutil (cwd : string) (dirs files : gset string)
    (base_name root_dir : string) : archive_outcome :=
  let root := posixpath.abspath cwd root_dir in
  if bool_decide (root ∈ dirs) then
    ArchiveReturns (posixpath.abspath cwd (base_name +:+ ".zip")) dirs files
  else if bool_decide (root ∈ files) then
    ArchiveRaises NotADirectoryError dirs files
  else ArchiveRaises FileNotFoundError dirs files.

(** A disk with two project directories, one of them under the working
    directory. *)
Definition fs : filesystem :=
  {| cwd := "/home/user";
     dirs := {[ "/tmp/myproj"; "/home/user/myproj" ]};
     files := ∅;
     archiver := shutil |}.

(** A world in which a session is held. *)
Definition logged_in : world :=
  {| self := {| __host := JStr "http://host";
                __session_id := JStr "abc123" |};
     disk := fs;
     trace := [] |}.

End stub.

(** * Properties *)

(** ** Running a method

    The methods are straight-line code over [M]: a statement about one of
    them is read off after unfolding the statements it is made of. *)

Ltac py_unfold :=
  unfold login, upload, schedule, execute, get_logged_session, logout,
    set_logged_session, try_except, call_api, keys, subscript, has_key,
    logging_error, logging_info, emit, read_host, read_session_id,
    basename_abspath, make_archive, os_remove, raise,
    mbind, mret, M_bind, M_ret in *.

Ltac py_run := py_unfold; cbn -[lookup elem_of union difference singleton].

(** Case analysis on whatever the method is still waiting for: the reply of
    the server, the shape of the JSON value, a key lookup, a test. *)
Ltac py_case :=
  match goal with
  | |- context [bool_decide ?P] => destruct (bool_decide P) eqn:?
  | |- context [match ?x with Raises _ => _ | Json _ => _ end] =>
      destruct x eqn:?
  | |- context [match ?x with
                | ArchiveRaises _ _ _ => _ | ArchiveReturns _ _ _ => _
                end] => destruct x eqn:?
  | |- context [match ?x with JNull => _ | _ => _ end] => destruct x
  | |- context [is_ConnectionError ?e] => destruct e
  | |- context [is_FileNotFoundError ?e] => destruct e
  | |- context [?d !! ?k] => destruct (d !! k) eqn:?
  | |- context [eq_str ?v ?s] => destruct (eq_str v s) eqn:?
  end; cbn -[lookup elem_of union difference singleton] in *.

Ltac py_cases := repeat py_case.

(** Rewriting with what is known about the session, the disk and the server
    until the method has run to its end. *)
Ltac py_known :=
  repeat (cbn -[lookup elem_of union difference singleton];
          match goal with
          | H : ?d !! "error" = None
            |- context [bool_decide (is_Some (?d !! "error"))] =>
              rewrite (bool_decide_eq_false_2 (is_Some (d !! "error")))
                by (rewrite H; apply is_Some_None)
          | H : ?x ∈ ?X |- context [bool_decide (?x ∈ ?X)] =>
              rewrite (bool_decide_eq_true_2 (x ∈ X) H)
          | |- context [bool_decide (?x ∈ ?X ∪ {[?x]})] =>
              rewrite (bool_decide_eq_true_2 (x ∈ X ∪ {[x]}))
                by (apply elem_of_union_r, elem_of_singleton; reflexivity)
          | H : truthy _ = _ |- _ => rewrite H
          | H : _ = Json _ |- _ => rewrite H
          | H : _ = Raises _ |- _ => rewrite H
          | H : _ = ArchiveReturns _ _ _ |- _ => rewrite H
          | H : _ = ArchiveRaises _ _ _ |- _ => rewrite H
          | H : ∀ _, _ = Json _ |- _ => rewrite H
          | H : ∀ _ _, _ = Json _ |- _ => rewrite H
          | H : ∀ _ _, _ = Raises _ |- _ => rewrite H
          | H : _ !! _ = _ |- _ => rewrite H
          | H : eq_str _ _ = _ |- _ => rewrite H
          end);
  cbn -[lookup elem_of union difference singleton].

Lemma requests_of_app t1 t2 :
  requests_of (t1 ++ t2) = requests_of t1 ++ requests_of t2.
Proof. apply omap_app. Qed.

Lemma archives_of_app t1 t2 :
  archives_of (t1 ++ t2) = archives_of t1 ++ archives_of t2.
Proof. apply omap_app. Qed.

(** Collecting the requests and archive attempts of a finished trace. *)
Ltac py_trace :=
  cbn; rewrite ?requests_of_app, ?archives_of_app; cbn;
  rewrite ?app_nil_r, <- ?app_assoc; try reflexivity.

(** ** Host normalisation *)

Section strings.

Lemma endswith_append_char s c : endswith (s +:+ String c "") c = true.
Proof.
  induction s as [|a s IH]; simpl.
  - apply Ascii.eqb_refl.
  - destruct (s +:+ String c "") eqn:E; [by destruct s|]. done.
Qed.

Lemma drop_last_append_char s c : drop_last (s +:+ String c "") = s.
Proof.
  induction s as [|a s IH]; simpl; [done|].
  destruct (s +:+ String c "") eqn:E; [by destruct s|]. by rewrite IH.
Qed.

Lemma endswith_drop_last s c :
  endswith s c = true → s = drop_last s +:+ String c "".
Proof.
  induction s as [|a s IH]; [done|]. destruct s as [|b r].
  - simpl. by intros ->%Ascii.eqb_eq.
  - intros H.
    change (String a (String b r) =
            String a (drop_last (String b r) +:+ String c "")).
    f_equal. by apply IH.
Qed.

Lemma append_cons a s t : String a s +:+ t = String a (s +:+ t).
Proof. reflexivity. Qed.

Lemma append_empty_r s : s +:+ "" = s.
Proof. induction s as [|a s IH]; [done|]. by rewrite append_cons, IH. Qed.

Lemma append_assoc s t u : (s +:+ t) +:+ u = s +:+ (t +:+ u).
Proof.
  induction s as [|a s IH]; [done|]. by rewrite !append_cons, IH.
Qed.

Lemma replicate_char_snoc k c :
  replicate_char (S k) c = replicate_char k c +:+ String c "".
Proof.
  induction k as [|k IH]; [done|].
  change (String c (replicate_char (S k) c) =
          String c (replicate_char k c +:+ String c "")).
  by rewrite <- IH.
Qed.

End strings.

(** The loop of [__validate_host], one turn at a time. *)
Lemma validate_host_unfold host :
  __validate_host host =
  if endswith host "/" then __validate_host (drop_last host) else host.
Proof.
  funelim (__validate_host host);
    match goal with E : endswith _ _ = _ |- _ => by rewrite E end.
Qed.

(** A host that does not end in a slash, followed by any number of slashes,
    is normalised to that host. *)
Lemma validate_host_strips (r : string) (k : nat) :
  endswith r "/" = false →
  __validate_host (r +:+ replicate_char k "/") = r.
Proof.
  intros Hr. induction k as [|k IH].
  - rewrite append_empty_r, validate_host_unfold. by rewrite Hr.
  - rewrite replicate_char_snoc, <- append_assoc, validate_host_unfold.
    by rewrite endswith_append_char, drop_last_append_char.
Qed.

(** C2. Host normalisation: for every input string, [__validate_host] returns
    the input with all of its trailing ['/'] characters removed and the rest
    unchanged: the input is the result followed by some number [k] of
    slashes, and the result does not end in a slash.  In particular, an input
    with no trailing slash is returned exactly as given. *)
Theorem validate_host_removes_trailing_slashes (host : string) :
  (∃ k : nat, host = __validate_host host +:+ replicate_char k "/")
  ∧ endswith (__validate_host host) "/" = false
  ∧ (endswith host "/" = false → __validate_host host = host).
Proof.
  split_and!.
  - funelim (__validate_host host).
    + match goal with IH : ∃ _, _ |- _ =>
        destruct IH as [k Hk]; exists (S k);
        rewrite replicate_char_snoc, <- append_assoc, <- Hk
      end.
      by apply endswith_drop_last.
    + exists 0. by rewrite append_empty_r.
  - funelim (__validate_host host); done.
  - intros H. rewrite validate_host_unfold. by rewrite H.
Qed.

(** The example of the specification, and a host with nothing to strip. *)
Lemma validate_host_removes_trailing_slashes_witness :
  __validate_host "http://host///" = "http://host"
  ∧ __validate_host "http://host" = "http://host".
Proof.
  split.
  - reflexivity.
  - apply (validate_host_removes_trailing_slashes "http://host"). reflexivity.
Defined.

(** ** Login *)

(** C1. Login is atomic: for every prior session state, if the login request
    raises a connection error, or the parsed response JSON contains an
    ['error'] key, then [login] returns [False] and the stored host and
    session id are what they were before the call. *)
Theorem login_failure_is_atomic (api : request → reply)
    (host user password : string) (w : world) :
  (api (login_request (__validate_host host) user password)
     = Raises ConnectionError
   ∨ ∃ d : gmap string pyval,
       api (login_request (__validate_host host) user password) = Json (JObj d)
       ∧ is_Some (d !! "error")) →
  (login api host user password w).1 = Return false
  ∧ self (login api host user password w).2 = self w.
Proof.
  intros [Hconn | (d & Hd & [msg Hmsg])]; py_run.
  - by rewrite Hconn.
  - rewrite Hd. cbn -[lookup]. rewrite bool_decide_eq_true_2 by eauto.
    by rewrite Hmsg.
Qed.

(** A held session survives a refused and an impossible re-login. *)
Lemma login_failure_is_atomic_witness :
  ((login stub.refusing "http://other/" "user" "wrong" stub.logged_in).1
     = Return false
   ∧ self (login stub.refusing "http://other/" "user" "wrong" stub.logged_in).2
     = self stub.logged_in)
  ∧ ((login stub.unreachable "http://other/" "user" "pw" stub.logged_in).1
       = Return false
     ∧ self (login stub.unreachable "http://other/" "user" "pw" stub.logged_in).2
       = self stub.logged_in).
Proof.
  split.
  - apply (login_failure_is_atomic stub.refusing). right.
    exists {[ "error" := JStr "Incorrect Login." ]}. split; [reflexivity|].
    exists (JStr "Incorrect Login."). reflexivity.
  - apply (login_failure_is_atomic stub.unreachable). left. reflexivity.
Defined.

(** C9. Login success commits the normalised session: for every login call
    whose response JSON has no ['error'] key and carries a ['session.id']
    field, [login] returns [True], and afterwards [get_logged_session] returns
    the normalised host paired with the [session.id] value of the response. *)
Theorem login_success_commits_session (api : request → reply)
    (host user password : string) (w : world)
    (d : gmap string pyval) (sid : pyval) :
  api (login_request (__validate_host host) user password) = Json (JObj d) →
  d !! "error" = None →
  d !! "session.id" = Some sid →
  (login api host user password w).1 = Return true
  ∧ (get_logged_session (login api host user password w).2).1
    = Return {[ "host" := JStr (__validate_host host); "session_id" := sid ]}.
Proof.
  intros Hd Herr Hsid. py_run. rewrite Hd. cbn -[lookup].
  rewrite bool_decide_eq_false_2 by (rewrite Herr; apply is_Some_None).
  by rewrite Hsid.
Qed.

(** The end-to-end scenario of the specification: the stub hands out
    ["abc123"], the host is given with trailing slashes. *)
Lemma login_success_commits_session_witness :
  (login stub.accepting "http://host///" "user" "pw" (__init__ stub.fs)).1
    = Return true
  ∧ (get_logged_session
       (login stub.accepting "http://host///" "user" "pw" (__init__ stub.fs)).2).1
    = Return {[ "host" := JStr (__validate_host "http://host///");
                "session_id" := JStr "abc123" ]}.
Proof.
  apply (login_success_commits_session stub.accepting "http://host///" "user"
           "pw" (__init__ stub.fs) {[ "session.id" := JStr "abc123" ]});
    reflexivity.
Defined.

(** ** The logged-in guard *)

Lemma not_logged_no_request w :
  requests_of (trace (after w [not_logged])) = requests_of (trace w).
Proof. cbn. by rewrite requests_of_app, app_nil_r. Qed.

(** C3. Guarded operations reject when logged out: in every state in which no
    session id is stored, each of [upload], [schedule] and [execute] returns
    [False] and performs no HTTP request; all it does is log that the caller
    is not logged in. *)
Theorem guarded_operations_reject_when_logged_out (api : request → reply)
    (w : world) :
  __session_id (self w) = JNull →
  (∀ path project zip_name,
      rejected_without_request w (upload api path project zip_name w)
      ∧ (upload api path project zip_name w).2 = after w [not_logged])
  ∧ (∀ project flow cron,
      rejected_without_request w (schedule api project flow cron w)
      ∧ (schedule api project flow cron w).2 = after w [not_logged])
  ∧ (∀ project flow,
      rejected_without_request w (execute api project flow w)
      ∧ (execute api project flow w).2 = after w [not_logged]).
Proof.
  intros Hnone. unfold rejected_without_request.
  split_and!; intros; py_run; rewrite Hnone; cbn;
    by rewrite requests_of_app, app_nil_r.
Qed.

(** Before any login, against a server that would accept everything. *)
Lemma guarded_operations_reject_when_logged_out_witness :
  rejected_without_request (__init__ stub.fs)
    (upload stub.accepting "/tmp/myproj" None None (__init__ stub.fs))
  ∧ rejected_without_request (__init__ stub.fs)
      (schedule stub.accepting "proj1" "flow1" "0 0 12 * * ?" (__init__ stub.fs))
  ∧ rejected_without_request (__init__ stub.fs)
      (execute stub.accepting "proj1" "flow1" (__init__ stub.fs)).
Proof.
  pose proof (guarded_operations_reject_when_logged_out stub.accepting
                (__init__ stub.fs) eq_refl) as (Hu & Hs & He).
  split_and!.
  - apply (Hu "/tmp/myproj" None None).
  - apply (Hs "proj1" "flow1" "0 0 12 * * ?").
  - apply (He "proj1" "flow1").
Defined.

(** ** Schedule *)

(** C6. Schedule dual-failure channel: in every logged-in state, [schedule]
    returns [False] when the response JSON contains a top-level ['error'] key,
    and also when it has no ['error'] key but a ['status'] field equal to
    ["error"], in which case the accompanying ['message'] is logged as an
    error; it returns [True] only when neither channel fires. *)
Theorem schedule_dual_failure_channel (api : request → reply)
    (project flow cron : string) (w : world) :
  truthy (__session_id (self w)) = true →
  (∀ d : gmap string pyval,
      api (schedule_request (__host (self w)) (__session_id (self w))
             project flow cron) = Json (JObj d) →
      is_Some (d !! "error") →
      (schedule api project flow cron w).1 = Return false)
  ∧ (∀ (d : gmap string pyval) (m : pyval),
      api (schedule_request (__host (self w)) (__session_id (self w))
             project flow cron) = Json (JObj d) →
      d !! "error" = None →
      d !! "status" = Some (JStr "error") →
      d !! "message" = Some m →
      (schedule api project flow cron w).1 = Return false
      ∧ trace (schedule api project flow cron w).2
        = trace w ++
          [EvRequest (schedule_request (__host (self w)) (__session_id (self w))
                        project flow cron);
           EvLog ERROR (MsgObj m)])
  ∧ ((schedule api project flow cron w).1 = Return true →
     ∃ (d : gmap string pyval) (status : pyval),
       api (schedule_request (__host (self w)) (__session_id (self w))
              project flow cron) = Json (JObj d)
       ∧ d !! "error" = None
       ∧ d !! "status" = Some status
       ∧ eq_str status "error" = false).
Proof.
  intros Hlogged. split_and!.
  - intros d Hd [msg Hmsg]. py_run. rewrite Hlogged. cbn -[lookup].
    rewrite Hd. cbn -[lookup]. rewrite bool_decide_eq_true_2 by eauto.
    by rewrite Hmsg.
  - intros d m Hd Herr Hstatus Hm. py_run. rewrite Hlogged. cbn -[lookup].
    rewrite Hd. cbn -[lookup].
    rewrite bool_decide_eq_false_2 by (rewrite Herr; apply is_Some_None).
    rewrite Hstatus. cbn -[lookup]. rewrite Hm. cbn.
    by rewrite <- app_assoc.
  - py_run. rewrite Hlogged. cbn -[lookup].
    destruct (api _) as [e|[| | | | | |d]] eqn:Hd; cbn -[lookup]; try done.
    case_bool_decide as Herr; cbn -[lookup].
    { destruct (d !! "error"); cbn; done. }
    destruct (d !! "status") as [status|] eqn:Hstatus; cbn -[lookup]; [|done].
    destruct (eq_str status "error") eqn:Heq; cbn -[lookup].
    { destruct (d !! "message"); cbn; done. }
    intros _. exists d, status. split_and!; try done.
    by apply eq_None_not_Some.
Qed.

(** The example of the specification: [{status: "error", message: "bad
    cron"}] is a failure, and ["bad cron"] is what gets logged. *)
Lemma schedule_dual_failure_channel_witness :
  (schedule stub.bad_cron "proj1" "flow1" "every day" stub.logged_in).1
    = Return false
  ∧ trace (schedule stub.bad_cron "proj1" "flow1" "every day" stub.logged_in).2
    = [EvRequest (schedule_request (JStr "http://host") (JStr "abc123")
                    "proj1" "flow1" "every day");
       EvLog ERROR (MsgObj (JStr "bad cron"))].
Proof.
  refine (proj1 (proj2 (schedule_dual_failure_channel stub.bad_cron "proj1"
                          "flow1" "every day" stub.logged_in eq_refl))
            {[ "status" := JStr "error"; "message" := JStr "bad cron" ]}
            (JStr "bad cron") _ _ _ _); reflexivity.
Defined.

(** ** Responses without the expected fields *)




(** ** Upload *)



(** Once past the guard, [upload] makes exactly one archive attempt. *)
Lemma upload_archives (api : request → reply) (path : string)
    (project zip_name : option string) (w : world) :
  truthy (__session_id (self w)) = true →
  archives_of (trace (upload api path project zip_name w).2)
  = (archives_of (trace w) ++
     [(archive_name w path project zip_name, path)])%list.
Proof.
  intros Hlogged. unfold archive_name, project_in_use. py_run. py_known.
  destruct (supplied project), (supplied zip_name); py_known;
    py_cases; py_known; py_cases; py_trace.
Qed.

(** When the library returns an archive, it sends exactly one request, with
    the path the library returned. *)
Lemma upload_requests (api : request → reply) (path : string)
    (project zip_name : option string) (w : world)
    (zip_path : string) (dirs' files' : gset string) :
  truthy (__session_id (self w)) = true →
  archiving (disk w) (archive_name w path project zip_name) path
  = ArchiveReturns zip_path dirs' files' →
  requests_of (trace (upload api path project zip_name w).2)
  = (requests_of (trace w) ++
     [upload_request (__host (self w)) (__session_id (self w))
        (project_in_use w path project) zip_path])%list.
Proof.
  intros Hlogged Harch. unfold archive_name, project_in_use in *.
  py_run. py_known.
  destruct (supplied project), (supplied zip_name); cbn in Harch; py_known;
    py_cases; py_known; py_cases; py_trace.
Qed.

(** The first thing [upload] does past the guard is to ask for the archive,
    in format ['zip']. *)
Lemma upload_archive_event (api : request → reply) (path : string)
    (project zip_name : option string) (w : world) :
  truthy (__session_id (self w)) = true →
  ∃ rest : list event,
    trace (upload api path project zip_name w).2
    = (trace w ++
       EvMakeArchive (archive_name w path project zip_name) "zip" path
       :: rest)%list.
Proof.
  intros Hlogged. unfold archive_name, project_in_use. py_run. py_known.
  destruct (supplied project), (supplied zip_name); py_known;
    py_cases; py_known; py_cases;
    eexists; rewrite <- ?app_assoc; reflexivity.
Qed.

Lemma supplied_Some (p : string) : p ≠ "" → supplied (Some p) = true.
Proof.
  intros Hne. cbn. apply negb_true_iff, String.eqb_neq, Hne.
Qed.

(** C8. Upload defaulting: in an upload call where [project] is not supplied,
    the project name used is the final component of the absolute form of
    [path]; where [zip_name] is not supplied, the archive is named after the
    project name in use, supplied or not.  Both show in the archive that
    [make_archive] is asked for (base name and format ['zip'], that is the
    file [name.zip]) and, when the library returns it, in the request that is
    sent with the project name and the path of that archive. *)
Theorem upload_defaults (api : request → reply) (path : string)
    (project zip_name : option string) (w : world) :
  truthy (__session_id (self w)) = true →
  (supplied project = false → supplied zip_name = false →
   archives_of (trace (upload api path project zip_name w).2)
   = (archives_of (trace w) ++
      [(posixpath.basename (posixpath.abspath (cwd (disk w)) path), path)])%list)
  ∧ (∀ p, project = Some p → p ≠ "" → supplied zip_name = false →
     archives_of (trace (upload api path project zip_name w).2)
     = (archives_of (trace w) ++ [(p, path)])%list)
  ∧ (supplied project = false → supplied zip_name = false →
     ∃ rest : list event,
       trace (upload api path project zip_name w).2
       = (trace w ++
          EvMakeArchive
            (posixpath.basename (posixpath.abspath (cwd (disk w)) path))
            "zip" path
          :: rest)%list)
  ∧ (∀ zip_path dirs' files',
       supplied project = false → supplied zip_name = false →
       archiving (disk w)
         (posixpath.basename (posixpath.abspath (cwd (disk w)) path)) path
       = ArchiveReturns zip_path dirs' files' →
       requests_of (trace (upload api path project zip_name w).2)
       = (requests_of (trace w) ++
          [upload_request (__host (self w)) (__session_id (self w))
             (posixpath.basename (posixpath.abspath (cwd (disk w)) path))
             zip_path])%list)
  ∧ (∀ z zip_path dirs' files',
       supplied project = false → zip_name = Some z → z ≠ "" →
       archiving (disk w) z path = ArchiveReturns zip_path dirs' files' →
       requests_of (trace (upload api path project zip_name w).2)
       = (requests_of (trace w) ++
          [upload_request (__host (self w)) (__session_id (self w))
             (posixpath.basename (posixpath.abspath (cwd (disk w)) path))
             zip_path])%list)
  ∧ (∀ p zip_path dirs' files',
       project = Some p → p ≠ "" → supplied zip_name = false →
       archiving (disk w) p path = ArchiveReturns zip_path dirs' files' →
       requests_of (trace (upload api path project zip_name w).2)
       = (requests_of (trace w) ++
          [upload_request (__host (self w)) (__session_id (self w))
             p zip_path])%list).
Proof.
  intros Hlogged. split_and!.
  - intros Hp Hz. rewrite upload_archives by done.
    unfold archive_name, project_in_use. by rewrite Hz, Hp.
  - intros p -> Hne Hz. rewrite upload_archives by done.
    unfold archive_name, project_in_use. by rewrite Hz, supplied_Some.
  - intros Hp Hz.
    destruct (upload_archive_event api path project zip_name w Hlogged)
      as [rest Hrest].
    exists rest. rewrite Hrest. unfold archive_name, project_in_use.
    by rewrite Hz, Hp.
  - intros zip_path dirs' files' Hp Hz Harch.
    rewrite (upload_requests _ _ _ _ _ zip_path dirs' files'); try done;
      unfold archive_name, project_in_use; by rewrite ?Hz, ?Hp.
  - intros z zip_path dirs' files' Hp -> Hne Harch.
    rewrite (upload_requests _ _ _ _ _ zip_path dirs' files'); try done;
      unfold archive_name, project_in_use; by rewrite ?Hp, ?supplied_Some.
  - intros p zip_path dirs' files' -> Hne Hz Harch.
    rewrite (upload_requests _ _ _ _ _ zip_path dirs' files'); try done;
      unfold archive_name, project_in_use; by rewrite ?Hz, ?supplied_Some.
Qed.

(** The example of the specification, [path = "/tmp/myproj"] with neither name
    given: the archive asked for is [myproj] in format zip, and project
    ["myproj"] is uploaded from it.  The same for the relative path
    ["myproj/"], whose last component is empty until it is made absolute
    against the working directory [/home/user]. *)
Lemma upload_defaults_witness :
  (archives_of (trace (upload stub.accepting "/tmp/myproj" None None
                         stub.logged_in).2)
     = [("myproj", "/tmp/myproj")]
   ∧ requests_of (trace (upload stub.accepting "/tmp/myproj" None None
                           stub.logged_in).2)
     = [upload_request (JStr "http://host") (JStr "abc123")
          "myproj" "/home/user/myproj.zip"])
  ∧ (posixpath.basename "myproj/" = ""
     ∧ archives_of (trace (upload stub.accepting "myproj/" None None
                             stub.logged_in).2)
       = [("myproj", "myproj/")]
     ∧ requests_of (trace (upload stub.accepting "myproj/" None None
                             stub.logged_in).2)
       = [upload_request (JStr "http://host") (JStr "abc123")
            "myproj" "/home/user/myproj.zip"]).
Proof.
  split.
  - pose proof (upload_defaults stub.accepting "/tmp/myproj" None None
                  stub.logged_in eq_refl) as (Harchive & _ & _ & Hrequest & _).
    split.
    + apply Harchive; reflexivity.
    + refine (Hrequest "/home/user/myproj.zip" (dirs stub.fs) (files stub.fs)
                _ _ _); [reflexivity..|vm_compute; reflexivity].
  - pose proof (upload_defaults stub.accepting "myproj/" None None
                  stub.logged_in eq_refl) as (Harchive & _ & _ & Hrequest & _).
    split_and!.
    + reflexivity.
    + apply Harchive; reflexivity.
    + refine (Hrequest "/home/user/myproj.zip" (dirs stub.fs) (files stub.fs)
                _ _ _); [reflexivity..|vm_compute; reflexivity].
Defined.

(** ** What the guard looks at *)

Lemma snoc_neq {A} (l : list A) (x : A) : (l ++ [x])%list ≠ l.
Proof.
  intros H. apply (f_equal (@List.length A)) in H.
  rewrite List.length_app in H. cbn in H. lia.
Qed.

(** Past the guard, [schedule] sends exactly one request, to whatever host
    is stored. *)
Lemma schedule_requests (api : request → reply) (project flow cron : string)
    (w : world) :
  truthy (__session_id (self w)) = true →
  requests_of (trace (schedule api project flow cron w).2)
  = (requests_of (trace w) ++
     [schedule_request (__host (self w)) (__session_id (self w))
        project flow cron])%list.
Proof. intros Hlogged. py_run. py_known. py_cases; py_trace. Qed.

(** So does [execute]. *)
Lemma execute_requests (api : request → reply) (project flow : string)
    (w : world) :
  truthy (__session_id (self w)) = true →
  requests_of (trace (execute api project flow w).2)
  = (requests_of (trace w) ++
     [execute_request (__host (self w)) (__session_id (self w))
        project flow])%list.
Proof. intros Hlogged. py_run. py_known. py_cases; py_trace. Qed.

(** C10, as the code has it. The guard tests the truthiness of the stored
    session id and nothing else.  [schedule] and [execute] return [False]
    without sending a request exactly when the stored session id is falsy;
    [upload] returns [False] without sending a request and without attempting
    the archive exactly when it is falsy.  The stored host plays no part: with
    a truthy session id the request goes out to whatever host is stored, an
    absent one included.  Among [None] and strings, falsy means [None] or the
    empty string. *)
Theorem guard_tests_session_id_only (api : request → reply) (w : world) :
  (∀ project flow cron,
      rejected_without_request w (schedule api project flow cron w)
      ↔ truthy (__session_id (self w)) = false)
  ∧ (∀ project flow,
      rejected_without_request w (execute api project flow w)
      ↔ truthy (__session_id (self w)) = false)
  ∧ (∀ path project zip_name,
      (rejected_without_request w (upload api path project zip_name w)
       ∧ archives_of (trace (upload api path project zip_name w).2)
         = archives_of (trace w))
      ↔ truthy (__session_id (self w)) = false)
  ∧ (∀ project flow cron,
      truthy (__session_id (self w)) = true →
      requests_of (trace (schedule api project flow cron w).2)
      = (requests_of (trace w) ++
         [schedule_request (__host (self w)) (__session_id (self w))
            project flow cron])%list)
  ∧ truthy JNull = false
  ∧ (∀ s : string, truthy (JStr s) = false ↔ s = "").
Proof.
  split_and!.
  - intros project flow cron. split.
    + intros [_ Hreq]. destruct (truthy (__session_id (self w))) eqn:E; [|done].
      rewrite schedule_requests in Hreq by done. by apply snoc_neq in Hreq.
    + intros Hfalsy. split; py_run; rewrite Hfalsy; py_trace.
  - intros project flow. split.
    + intros [_ Hreq]. destruct (truthy (__session_id (self w))) eqn:E; [|done].
      rewrite execute_requests in Hreq by done. by apply snoc_neq in Hreq.
    + intros Hfalsy. split; py_run; rewrite Hfalsy; py_trace.
  - intros path project zip_name. split.
    + intros [_ Harch]. destruct (truthy (__session_id (self w))) eqn:E; [|done].
      rewrite upload_archives in Harch by done. by apply snoc_neq in Harch.
    + intros Hfalsy. unfold rejected_without_request.
      split_and!; py_run; rewrite Hfalsy; py_trace.
  - intros project flow cron Hlogged. by apply schedule_requests.
  - reflexivity.
  - intros s. cbn. rewrite negb_false_iff. apply String.eqb_eq.
Qed.

(** A session id without a host passes the guard, and the request carries
    the absent host; an empty session id is turned away. *)
Lemma guard_tests_session_id_only_witness :
  requests_of
    (trace (schedule stub.accepting "proj1" "flow1" "0 0 12 * * ?"
              {| self := {| __host := JNull; __session_id := JStr "abc123" |};
                 disk := stub.fs; trace := [] |}).2)
    = [schedule_request JNull (JStr "abc123") "proj1" "flow1" "0 0 12 * * ?"]
  ∧ rejected_without_request
      {| self := {| __host := JStr "http://host"; __session_id := JStr "" |};
         disk := stub.fs; trace := [] |}
      (execute stub.accepting "proj1" "flow1"
         {| self := {| __host := JStr "http://host"; __session_id := JStr "" |};
            disk := stub.fs; trace := [] |}).
Proof.
  split.
  - apply (guard_tests_session_id_only stub.accepting
             {| self := {| __host := JNull; __session_id := JStr "abc123" |};
                disk := stub.fs; trace := [] |}).
    reflexivity.
  - apply (guard_tests_session_id_only stub.accepting
             {| self := {| __host := JStr "http://host"; __session_id := JStr "" |};
                disk := stub.fs; trace := [] |}).
    reflexivity.
Defined.

(** C10, as the claim has it, fails for [upload]: with a session held and a
    path that does not exist, [upload] returns [False] without sending a
    request although the stored session id is truthy. *)
Lemma upload_rejects_although_logged_in :
  truthy (__session_id (self stub.logged_in)) = true
  ∧ rejected_without_request stub.logged_in
      (upload stub.accepting "/tmp/missing" None None stub.logged_in)
  ∧ ¬ (∀ (api : request → reply) (w : world) path project zip_name,
         rejected_without_request w (upload api path project zip_name w)
         ↔ truthy (__session_id (self w)) = false).
Proof.
  assert (rejected_without_request stub.logged_in
            (upload stub.accepting "/tmp/missing" None None stub.logged_in))
    as Hrej by (split; reflexivity).
  split_and!; [reflexivity|exact Hrej|].
  intros Hclaim. by apply Hclaim in Hrej.
Qed.

(** ** The session pair over the life of the object *)

(** [upload], [schedule] and [execute] never write the session. *)
Lemma upload_keeps_session api path project zip_name w :
  self (upload api path project zip_name w).2 = self w.
Proof.
  py_run. destruct (truthy (__session_id (self w))); [|done].
  cbn -[lookup elem_of union difference singleton].
  destruct (supplied project), (supplied zip_name); py_known;
    py_cases; py_known; py_cases; done.
Qed.

Lemma schedule_keeps_session api project flow cron w :
  self (schedule api project flow cron w).2 = self w.
Proof.
  py_run. destruct (truthy (__session_id (self w))); [|done].
  py_known. py_cases; done.
Qed.

Lemma execute_keeps_session api project flow w :
  self (execute api project flow w).2 = self w.
Proof.
  py_run. destruct (truthy (__session_id (self w))); [|done].
  py_known. py_cases; done.
Qed.

(** [login] either leaves the session alone or stores the normalised host
    with the ['session.id'] of an answer that has no ['error']. *)
Lemma login_session api host user password w :
  self (login api host user password w).2 = self w
  ∨ ∃ d sid,
      api (login_request (__validate_host host) user password) = Json (JObj d)
      ∧ d !! "session.id" = Some sid
      ∧ self (login api host user password w).2
        = {| __host := JStr (__validate_host host); __session_id := sid |}.
Proof.
  py_run.
  destruct (api _) as [e|v] eqn:Hd; cbn -[lookup]; [left; by destruct e|].
  destruct v as [| | | | | |d]; cbn -[lookup]; try (by left).
  case_bool_decide; cbn -[lookup].
  { left. by destruct (d !! "error"). }
  destruct (d !! "session.id") as [sid|] eqn:Hsid; cbn; [|by left].
  right. by exists d, sid.
Qed.

(** C4, as the code has it. Session-pair invariant: in every state reachable
    through construction, [login], [logout], [set_logged_session], [upload],
    [schedule] and [execute], the stored host and session id are both present
    or both absent, provided that every [set_logged_session] call is given two
    values that are both present or both absent and that no login response
    carries a null ['session.id']. *)
Theorem session_pair_invariant (w : world) :
  reachable_by keeps_pair w → paired (self w).
Proof.
  induction 1 as [fs | api c w Hw IH Hc]; [reflexivity|].
  destruct c as [ |host sid| |host user password|path project zip_name
                |project flow cron|project flow]; cbn [run].
  - exact IH.
  - exact Hc.
  - reflexivity.
  - destruct (login_session api host user password w)
      as [-> | (d & sid & Hd & Hsid & ->)]; [exact IH|].
    unfold paired. cbn. specialize (Hc d Hd).
    destruct sid; try reflexivity. congruence.
  - by rewrite upload_keeps_session.
  - by rewrite schedule_keeps_session.
  - by rewrite execute_keeps_session.
Qed.

(** Construction, a successful login, an upload, and a logout. *)
Lemma session_pair_invariant_witness :
  paired (self (run stub.accepting call_logout
                  (run stub.accepting (call_upload "/tmp/myproj" None None)
                     (run stub.accepting (call_login "http://host/" "user" "pw")
                        (__init__ stub.fs))))).
Proof.
  apply session_pair_invariant.
  apply reachable_step; [|exact I].
  apply reachable_step; [|exact I].
  apply reachable_step; [apply reachable_init|].
  intros d Hd. injection Hd as <-. vm_compute. discriminate.
Defined.

(** C4, as the claim has it, fails: [set_logged_session] overwrites both
    attributes with whatever it is given, so one call reaches a state with a
    host and no session id. *)
Lemma session_pair_can_be_split :
  ∃ w : world,
    reachable w
    ∧ present (__host (self w)) = true
    ∧ present (__session_id (self w)) = false.
Proof.
  exists (run stub.accepting
            (call_set_logged_session (JStr "http://host") JNull)
            (__init__ stub.fs)).
  split_and!; [|reflexivity..].
  apply reachable_step; [apply reachable_init|exact I].
Qed.

(** The same state is reached through [login] alone when the server answers
    with a null session id. *)
Lemma login_null_session_splits_pair :
  (login stub.null_session "http://host" "user" "pw" (__init__ stub.fs)).1
    = Return true
  ∧ self (login stub.null_session "http://host" "user" "pw" (__init__ stub.fs)).2
    = {| __host := JStr "http://host"; __session_id := JNull |}.
Proof. split; reflexivity. Qed.

(** * Further properties of the methods *)

(** ** More on host normalisation *)

Lemma validate_host_no_trailing_slash host :
  endswith (__validate_host host) "/" = false.
Proof. funelim (__validate_host host); done. Qed.

(** X1. Normalising a host twice is normalising it once. *)
Theorem validate_host_idempotent (host : string) :
  __validate_host (__validate_host host) = __validate_host host.
Proof.
  rewrite (validate_host_unfold (__validate_host host)).
  by rewrite validate_host_no_trailing_slash.
Qed.

Lemma validate_host_append_slashes (host : string) (k : nat) :
  __validate_host (host +:+ replicate_char k "/") = __validate_host host.
Proof.
  induction k as [|k IH]; [by rewrite append_empty_r|].
  rewrite replicate_char_snoc, <- append_assoc, validate_host_unfold.
  by rewrite endswith_append_char, drop_last_append_char.
Qed.

(** X2. Trailing slashes do not matter: a host and the same host followed by
    any number of slashes are normalised to the same string, and a host made
    of slashes only is normalised to the empty string. *)
Theorem validate_host_ignores_trailing_slashes (host : string) (k : nat) :
  __validate_host (host +:+ replicate_char k "/") = __validate_host host
  ∧ __validate_host (replicate_char k "/") = "".
Proof.
  split; [apply validate_host_append_slashes|].
  apply (validate_host_append_slashes "").
Qed.

(** X3. So [login] does not see them either: logging in at a host and at the
    same host followed by any number of slashes is the same call, with the
    same request, the same result and the same stored session. *)
Theorem login_ignores_trailing_slashes (api : request → reply)
    (host user password : string) (k : nat) (w : world) :
  login api (host +:+ replicate_char k "/") user password w
  = login api host user password w.
Proof. unfold login. by rewrite validate_host_append_slashes. Qed.

(** ** Logout *)

(** X4. [logout] ends the session whatever came before: afterwards
    [get_logged_session] reads [None] twice, and [upload], [schedule] and
    [execute] are turned away without a request. *)
Theorem logout_ends_session (api : request → reply) (w : world) :
  (get_logged_session (logout w).2).1
  = Return {[ "host" := JNull; "session_id" := JNull ]}
  ∧ (∀ path project zip_name,
        rejected_without_request (logout w).2
          (upload api path project zip_name (logout w).2))
  ∧ (∀ project flow cron,
        rejected_without_request (logout w).2
          (schedule api project flow cron (logout w).2))
  ∧ (∀ project flow,
        rejected_without_request (logout w).2
          (execute api project flow (logout w).2)).
Proof.
  split_and!; [done|intros; split; py_run; py_trace..].
Qed.

(** ** More on login *)

(** X5. [login] writes the session only when it returns [True]: on every
    other outcome, a [False] or an exception of any kind, the stored host and
    session id are what they were; and it never touches the disk. *)
Theorem login_writes_session_only_on_success (api : request → reply)
    (host user password : string) (w : world) :
  ((login api host user password w).1 ≠ Return true →
   self (login api host user password w).2 = self w)
  ∧ disk (login api host user password w).2 = disk w.
Proof.
  py_run. split; py_cases; done.
Qed.

(** X6. [login] catches [ConnectionError] and nothing else: any other
    exception raised by the request or by the parsing of its body reaches the
    caller, with nothing logged and the session as it was. *)
Theorem login_propagates_other_exceptions (api : request → reply)
    (host user password : string) (w : world) (e : exn) :
  api (login_request (__validate_host host) user password) = Raises e →
  is_ConnectionError e = false →
  login api host user password w
  = (Raise e,
     after w [EvRequest (login_request (__validate_host host) user password)]).
Proof.
  intros He Hother. py_run. rewrite He. cbn. by rewrite Hother.
Qed.

Lemma login_propagates_other_exceptions_witness :
  login (λ _, Raises ReadTimeout) "http://host/" "user" "pw" stub.logged_in
  = (Raise ReadTimeout,
     after stub.logged_in [EvRequest (login_request "http://host" "user" "pw")]).
Proof.
  apply (login_propagates_other_exceptions (λ _, Raises ReadTimeout)
           "http://host/" "user" "pw" stub.logged_in ReadTimeout);
    reflexivity.
Defined.

(** X7. [login] has no guard and no retry: in every state, logged in or not,
    and whatever the server does, it sends exactly one request, to the
    normalised host. *)
Theorem login_sends_one_request (api : request → reply)
    (host user password : string) (w : world) :
  requests_of (trace (login api host user password w).2)
  = (requests_of (trace w) ++
     [login_request (__validate_host host) user password])%list.
Proof. py_run. py_cases; py_trace. Qed.

(** X8. [login] returns [True] exactly when the response is a JSON object
    without an ['error'] key and with a ['session.id'] key. *)
Theorem login_returns_true_iff (api : request → reply)
    (host user password : string) (w : world) :
  (login api host user password w).1 = Return true
  ↔ ∃ d : gmap string pyval,
      api (login_request (__validate_host host) user password) = Json (JObj d)
      ∧ d !! "error" = None
      ∧ is_Some (d !! "session.id").
Proof.
  split.
  - py_run.
    destruct (api _) as [e|v] eqn:Hd; cbn -[lookup]; [by destruct e|].
    destruct v as [| | | | | |d]; cbn -[lookup]; try done.
    case_bool_decide as Herr; cbn -[lookup].
    { by destruct (d !! "error"). }
    destruct (d !! "session.id") as [sid|] eqn:Hsid; cbn; [|done].
    intros _. exists d. split_and!; [done| |by eexists].
    by apply eq_None_not_Some.
  - intros (d & Hd & Herr & [sid Hsid]). py_run. by py_known.
Qed.

(** X9. A falsy session id is stored like any other: when the response
    carries a ['session.id'] that is [null], empty, zero or [false], [login]
    returns [True], and yet [upload], [schedule] and [execute] are turned away
    afterwards as not logged in. *)
Theorem login_with_falsy_session_id (api : request → reply)
    (host user password : string) (w : world)
    (d : gmap string pyval) (sid : pyval) :
  api (login_request (__validate_host host) user password) = Json (JObj d) →
  d !! "error" = None →
  d !! "session.id" = Some sid →
  truthy sid = false →
  (login api host user password w).1 = Return true
  ∧ (∀ api' path project zip_name,
        rejected_without_request (login api host user password w).2
          (upload api' path project zip_name (login api host user password w).2))
  ∧ (∀ api' project flow cron,
        rejected_without_request (login api host user password w).2
          (schedule api' project flow cron (login api host user password w).2))
  ∧ (∀ api' project flow,
        rejected_without_request (login api host user password w).2
          (execute api' project flow (login api host user password w).2)).
Proof.
  intros Hd Herr Hsid Hfalsy.
  assert (login api host user password w
          = (Return true,
             {| self := {| __host := JStr (__validate_host host);
                           __session_id := sid |};
                disk := disk w;
                trace := trace w ++
                  [EvRequest (login_request (__validate_host host) user password);
                   EvLog INFO (MsgFormat "Logged as %s" [JStr user])] |})) as ->.
  { py_run. py_known. by rewrite <- app_assoc. }
  split_and!; [done|intros; split; py_run; rewrite Hfalsy; py_trace..].
Qed.

Lemma login_with_falsy_session_id_witness :
  (login (λ _, Json (JObj {[ "session.id" := JStr "" ]}))
     "http://host" "user" "pw" (__init__ stub.fs)).1 = Return true
  ∧ rejected_without_request
      (login (λ _, Json (JObj {[ "session.id" := JStr "" ]}))
         "http://host" "user" "pw" (__init__ stub.fs)).2
      (execute stub.accepting "proj1" "flow1"
         (login (λ _, Json (JObj {[ "session.id" := JStr "" ]}))
            "http://host" "user" "pw" (__init__ stub.fs)).2).
Proof.
  pose proof (login_with_falsy_session_id
                (λ _, Json (JObj {[ "session.id" := JStr "" ]}))
                "http://host" "user" "pw" (__init__ stub.fs)
                {[ "session.id" := JStr "" ]} (JStr "")
                eq_refl eq_refl eq_refl eq_refl) as (Htrue & _ & _ & He).
  split; [exact Htrue|apply He].
Defined.

(** X10. The session that [login] stores is the one later requests use:
    after a successful login with a truthy session id, [schedule] and
    [execute] address the normalised host with the session id of the login
    response. *)
Theorem requests_after_login_use_its_session (api api' : request → reply)
    (host user password : string) (w : world)
    (d : gmap string pyval) (sid : pyval) :
  api (login_request (__validate_host host) user password) = Json (JObj d) →
  d !! "error" = None →
  d !! "session.id" = Some sid →
  truthy sid = true →
  (∀ project flow cron,
      requests_of (trace (schedule api' project flow cron
                            (login api host user password w).2).2)
      = (requests_of (trace w) ++
         [login_request (__validate_host host) user password;
          schedule_request (JStr (__validate_host host)) sid
            project flow cron])%list)
  ∧ (∀ project flow,
      requests_of (trace (execute api' project flow
                            (login api host user password w).2).2)
      = (requests_of (trace w) ++
         [login_request (__validate_host host) user password;
          execute_request (JStr (__validate_host host)) sid
            project flow])%list).
Proof.
  intros Hd Herr Hsid Htruthy.
  assert (self (login api host user password w).2
          = {| __host := JStr (__validate_host host); __session_id := sid |})
    as Hself by (py_run; by py_known).
  assert (requests_of (trace (login api host user password w).2)
          = (requests_of (trace w) ++
             [login_request (__validate_host host) user password])%list)
    as Hlogin by (py_run; py_known; py_trace).
  split; intros.
  - rewrite schedule_requests by (by rewrite Hself).
    by rewrite Hself, Hlogin, <- app_assoc.
  - rewrite execute_requests by (by rewrite Hself).
    by rewrite Hself, Hlogin, <- app_assoc.
Qed.

Lemma requests_after_login_use_its_session_witness :
  requests_of (trace (execute stub.accepting "proj1" "flow1"
                        (login stub.accepting "http://host///" "user" "pw"
                           (__init__ stub.fs)).2).2)
  = [login_request "http://host" "user" "pw";
     execute_request (JStr "http://host") (JStr "abc123") "proj1" "flow1"].
Proof.
  refine (proj2 (requests_after_login_use_its_session stub.accepting
                   stub.accepting "http://host///" "user" "pw"
                   (__init__ stub.fs) {[ "session.id" := JStr "abc123" ]}
                   (JStr "abc123") _ _ _ _) "proj1" "flow1"); reflexivity.
Defined.

(** ** Outcomes of the guarded operations *)

(** X11. [execute] returns [True] exactly when a session id is held and the
    response is a JSON object without an ['error'] key and with a ['message']
    key; the message is then logged at level INFO, after the one request. *)
Theorem execute_returns_true_iff (api : request → reply)
    (project flow : string) (w : world) :
  ((execute api project flow w).1 = Return true
   ↔ truthy (__session_id (self w)) = true
     ∧ ∃ (d : gmap string pyval) (m : pyval),
         api (execute_request (__host (self w)) (__session_id (self w))
                project flow) = Json (JObj d)
         ∧ d !! "error" = None
         ∧ d !! "message" = Some m)
  ∧ (∀ (d : gmap string pyval) (m : pyval),
        truthy (__session_id (self w)) = true →
        api (execute_request (__host (self w)) (__session_id (self w))
               project flow) = Json (JObj d) →
        d !! "error" = None →
        d !! "message" = Some m →
        (execute api project flow w).2
        = after w [EvRequest (execute_request (__host (self w))
                                (__session_id (self w)) project flow);
                   EvLog INFO (MsgFormat "%s" [m])]).
Proof.
  split; [split|].
  - py_run. destruct (truthy (__session_id (self w))) eqn:Hlogged;
      cbn -[lookup]; [|done].
    destruct (api _) as [e|v] eqn:Hd; cbn -[lookup]; [done|].
    destruct v as [| | | | | |d]; cbn -[lookup]; try done.
    case_bool_decide as Herr; cbn -[lookup].
    { by destruct (d !! "error"). }
    destruct (d !! "message") as [m|] eqn:Hm; cbn; [|done].
    intros _. split; [done|]. exists d, m. split_and!; try done.
    by apply eq_None_not_Some.
  - intros (Hlogged & d & m & Hd & Herr & Hm). py_run. by py_known.
  - intros d m Hlogged Hd Herr Hm. py_run. py_known. unfold after.
    by rewrite <- app_assoc.
Qed.

(** The second half of the end-to-end scenario: the flow is submitted. *)
Lemma execute_returns_true_iff_witness :
  (execute stub.accepting "proj1" "flow1" stub.logged_in).1 = Return true.
Proof.
  apply (execute_returns_true_iff stub.accepting "proj1" "flow1" stub.logged_in).
  split; [reflexivity|].
  exists {[ "message" := JStr "Execution submitted" ]},
         (JStr "Execution submitted").
  split_and!; reflexivity.
Defined.

(** X12. [schedule] returns [True] exactly when a session id is held and the
    response is a JSON object without an ['error'] key, with a ['status']
    other than ["error"], a ['message'] and a ['scheduleId']; the message and
    the schedule id are then logged at level INFO, in that order. *)
Theorem schedule_returns_true_iff (api : request → reply)
    (project flow cron : string) (w : world) :
  ((schedule api project flow cron w).1 = Return true
   ↔ truthy (__session_id (self w)) = true
     ∧ ∃ (d : gmap string pyval) (status m id : pyval),
         api (schedule_request (__host (self w)) (__session_id (self w))
                project flow cron) = Json (JObj d)
         ∧ d !! "error" = None
         ∧ d !! "status" = Some status
         ∧ eq_str status "error" = false
         ∧ d !! "message" = Some m
         ∧ d !! "scheduleId" = Some id)
  ∧ (∀ (d : gmap string pyval) (status m id : pyval),
        truthy (__session_id (self w)) = true →
        api (schedule_request (__host (self w)) (__session_id (self w))
               project flow cron) = Json (JObj d) →
        d !! "error" = None →
        d !! "status" = Some status →
        eq_str status "error" = false →
        d !! "message" = Some m →
        d !! "scheduleId" = Some id →
        (schedule api project flow cron w).2
        = after w [EvRequest (schedule_request (__host (self w))
                                (__session_id (self w)) project flow cron);
                   EvLog INFO (MsgObj m);
                   EvLog INFO (MsgFormat "scheduleId: %s" [id])]).
Proof.
  split; [split|].
  - py_run. destruct (truthy (__session_id (self w))) eqn:Hlogged;
      cbn -[lookup]; [|done].
    destruct (api _) as [e|v] eqn:Hd; cbn -[lookup]; [done|].
    destruct v as [| | | | | |d]; cbn -[lookup]; try done.
    case_bool_decide as Herr; cbn -[lookup].
    { by destruct (d !! "error"). }
    destruct (d !! "status") as [status|] eqn:Hstatus; cbn -[lookup]; [|done].
    destruct (eq_str status "error") eqn:Heq; cbn -[lookup].
    { by destruct (d !! "message"). }
    destruct (d !! "message") as [m|] eqn:Hm; cbn -[lookup]; [|done].
    destruct (d !! "scheduleId") as [id|] eqn:Hid; cbn -[lookup]; [|done].
    intros _. split; [done|]. exists d, status, m, id. split_and!; try done.
    by apply eq_None_not_Some.
  - intros (Hlogged & d & status & m & id & Hd & Herr & Hst & Heq & Hm & Hid).
    py_run. by py_known.
  - intros d status m id Hlogged Hd Herr Hst Heq Hm Hid. py_run. py_known.
    unfold after. by rewrite <- !app_assoc.
Qed.

(** X13. [schedule] logs before it has read everything: when the response
    has a ['status'] other than ["error"] and a ['message'] but no
    ['scheduleId'], the message is logged at level INFO and then
    [KeyError('scheduleId')] is raised. *)
Theorem schedule_logs_message_before_missing_schedule_id
    (api : request → reply) (project flow cron : string) (w : world)
    (d : gmap string pyval) (status m : pyval) :
  truthy (__session_id (self w)) = true →
  api (schedule_request (__host (self w)) (__session_id (self w))
         project flow cron) = Json (JObj d) →
  d !! "error" = None →
  d !! "status" = Some status →
  eq_str status "error" = false →
  d !! "message" = Some m →
  d !! "scheduleId" = None →
  schedule api project flow cron w
  = (Raise (KeyError "scheduleId"),
     after w [EvRequest (schedule_request (__host (self w))
                           (__session_id (self w)) project flow cron);
              EvLog INFO (MsgObj m)]).
Proof.
  intros Hlogged Hd Herr Hst Heq Hm Hid. py_run. py_known. unfold after.
  by rewrite <- !app_assoc.
Qed.

Lemma schedule_logs_message_before_missing_schedule_id_witness :
  schedule
    (λ _, Json (JObj {[ "status" := JStr "success";
                        "message" := JStr "proj1.flow1 scheduled." ]}))
    "proj1" "flow1" "0 0 12 * * ?" stub.logged_in
  = (Raise (KeyError "scheduleId"),
     after stub.logged_in
       [EvRequest (schedule_request (JStr "http://host") (JStr "abc123")
                     "proj1" "flow1" "0 0 12 * * ?");
        EvLog INFO (MsgObj (JStr "proj1.flow1 scheduled."))]).
Proof.
  apply (schedule_logs_message_before_missing_schedule_id
           (λ _, Json (JObj {[ "status" := JStr "success";
                               "message" := JStr "proj1.flow1 scheduled." ]}))
           "proj1" "flow1" "0 0 12 * * ?" stub.logged_in
           {[ "status" := JStr "success";
              "message" := JStr "proj1.flow1 scheduled." ]}
           (JStr "success") (JStr "proj1.flow1 scheduled."));
    reflexivity.
Defined.

(** X14. Unlike [login], [schedule] and [execute] catch nothing: when the
    request raises, a [ConnectionError] included, the exception reaches the
    caller, with nothing logged. *)
Theorem schedule_and_execute_propagate_request_errors
    (api : request → reply) (e : exn) (w : world) :
  truthy (__session_id (self w)) = true →
  (∀ r, api r = Raises e) →
  (∀ project flow cron,
      schedule api project flow cron w
      = (Raise e,
         after w [EvRequest (schedule_request (__host (self w))
                               (__session_id (self w)) project flow cron)]))
  ∧ (∀ project flow,
      execute api project flow w
      = (Raise e,
         after w [EvRequest (execute_request (__host (self w))
                               (__session_id (self w)) project flow)])).
Proof.
  intros Hlogged He. split; intros; py_run; rewrite Hlogged; cbn;
    by rewrite He.
Qed.

Lemma schedule_and_execute_propagate_request_errors_witness :
  execute stub.unreachable "proj1" "flow1" stub.logged_in
  = (Raise ConnectionError,
     after stub.logged_in
       [EvRequest (execute_request (JStr "http://host") (JStr "abc123")
                     "proj1" "flow1")]).
Proof.
  refine (proj2 (schedule_and_execute_propagate_request_errors
                   stub.unreachable ConnectionError stub.logged_in _ _)
            "proj1" "flow1"); reflexivity.
Defined.

(** ** More on upload *)



(** X16. Of the failures of the archive step, [upload] turns one into
    [False]: when [make_archive] raises [FileNotFoundError], the error is
    logged and [False] is returned; when it raises anything else, the
    exception reaches the caller with nothing logged.  Either way no request
    is sent and [os.remove] is not called. *)
Theorem upload_archive_failure (api : request → reply) (path : string)
    (project zip_name : option string) (w : world)
    (e : exn) (dirs' files' : gset string) :
  truthy (__session_id (self w)) = true →
  archiving (disk w) (archive_name w path project zip_name) path
  = ArchiveRaises e dirs' files' →
  (upload api path project zip_name w).1
  = (if is_FileNotFoundError e then Return false else Raise e)
  ∧ trace (upload api path project zip_name w).2
    = (trace w ++
       EvMakeArchive (archive_name w path project zip_name) "zip" path
       :: (if is_FileNotFoundError e
           then [EvLog ERROR (MsgExn FileNotFoundError)] else []))%list.
Proof.
  intros Hlogged Harch. unfold archive_name, project_in_use in *.
  py_run. py_known.
  destruct (supplied project), (supplied zip_name); cbn in Harch; py_known;
    destruct e; cbn; by rewrite <- ?app_assoc.
Qed.

(** With a library that checks [root_dir]: a missing path is logged and gives
    [False], a path that is a regular file raises. *)
Lemma upload_archive_failure_witness :
  ((upload stub.accepting "/tmp/missing" None None stub.logged_in).1
   = Return false
   ∧ trace (upload stub.accepting "/tmp/missing" None None stub.logged_in).2
     = [EvMakeArchive "missing" "zip" "/tmp/missing";
        EvLog ERROR (MsgExn FileNotFoundError)])
  ∧ (upload stub.accepting "/tmp/afile" None None
       {| self := self stub.logged_in;
          disk := {| cwd := "/home/user"; dirs := ∅;
                     files := {[ "/tmp/afile" ]};
                     archiver := stub.shutil |};
          trace := [] |}).1
    = Raise NotADirectoryError.
Proof.
  split.
  - apply (upload_archive_failure stub.accepting "/tmp/missing" None None
             stub.logged_in FileNotFoundError (dirs stub.fs) (files stub.fs));
      [reflexivity|vm_compute; reflexivity].
  - apply (upload_archive_failure stub.accepting "/tmp/afile" None None
             {| self := self stub.logged_in;
                disk := {| cwd := "/home/user"; dirs := ∅;
                           files := {[ "/tmp/afile" ]};
                           archiver := stub.shutil |};
                trace := [] |}
             NotADirectoryError ∅ {[ "/tmp/afile" ]});
      [reflexivity|vm_compute; reflexivity].
Defined.

(** X17. The archive outlives a failed request: when [make_archive] has
    returned an archive and the upload request raises, [upload] raises the
    same exception without reaching [os.remove], and the zip file stays on
    disk. *)
Theorem upload_request_failure_leaves_archive (api : request → reply)
    (path : string) (project zip_name : option string) (w : world) (e : exn)
    (zip_path : string) (dirs' files' : gset string) :
  truthy (__session_id (self w)) = true →
  archiving (disk w) (archive_name w path project zip_name) path
  = ArchiveReturns zip_path dirs' files' →
  api (upload_request (__host (self w)) (__session_id (self w))
         (project_in_use w path project) zip_path) = Raises e →
  (upload api path project zip_name w).1 = Raise e
  ∧ trace (upload api path project zip_name w).2
    = (trace w ++
       [EvMakeArchive (archive_name w path project zip_name) "zip" path;
        EvRequest (upload_request (__host (self w)) (__session_id (self w))
                     (project_in_use w path project) zip_path)])%list
  ∧ posixpath.abspath (cwd (disk w)) zip_path
    ∈ files (disk (upload api path project zip_name w).2).
Proof.
  intros Hlogged Harch He. unfold archive_name, project_in_use in *.
  py_run. py_known.
  destruct (supplied project), (supplied zip_name); cbn in Harch, He;
    py_known;
    (split_and!; [done|by rewrite <- !app_assoc|];
     apply elem_of_union_r, elem_of_singleton; reflexivity).
Qed.

Lemma upload_request_failure_leaves_archive_witness :
  (upload stub.unreachable "/tmp/myproj" None None stub.logged_in).1
  = Raise ConnectionError
  ∧ "/home/user/myproj.zip"
    ∈ files (disk (upload stub.unreachable "/tmp/myproj" None None
                     stub.logged_in).2).
Proof.
  destruct (upload_request_failure_leaves_archive stub.unreachable
              "/tmp/myproj" None None stub.logged_in ConnectionError
              "/home/user/myproj.zip" (dirs stub.fs) (files stub.fs))
    as (Hraise & _ & Hfile);
    [reflexivity|vm_compute; reflexivity|reflexivity|].
  split; [exact Hraise|exact Hfile].
Defined.

(** X18. An empty name is no name: [upload] called with [project] or
    [zip_name] equal to the empty string does exactly what it does when the
    argument is left out. *)
Theorem upload_empty_names_are_defaults (api : request → reply) (path : string)
    (project zip_name : option string) (w : world) :
  upload api path (Some "") zip_name w = upload api path None zip_name w
  ∧ upload api path project (Some "") w = upload api path project None w.
Proof. split; reflexivity. Qed.

(** ** What every operation does and does not do *)



(** The last event of the trace of a finished call. *)
Ltac py_last :=
  cbn -[lookup elem_of union difference singleton] in *;
  try discriminate; try (eexists _, _; reflexivity).

(** X20. No boolean comes back unannounced: whenever [login], [upload],
    [schedule] or [execute] returns [False], the last thing it did was to log
    at level ERROR, and whenever it returns [True], the last thing it did was
    to log at level INFO. *)
Theorem every_boolean_is_logged (api : request → reply) (w : world) :
  (∀ host user password,
      ((login api host user password w).1 = Return false →
       ∃ before msg, trace (login api host user password w).2
                     = (before ++ [EvLog ERROR msg])%list)
      ∧ ((login api host user password w).1 = Return true →
         ∃ before msg, trace (login api host user password w).2
                       = (before ++ [EvLog INFO msg])%list))
  ∧ (∀ path project zip_name,
      ((upload api path project zip_name w).1 = Return false →
       ∃ before msg, trace (upload api path project zip_name w).2
                     = (before ++ [EvLog ERROR msg])%list)
      ∧ ((upload api path project zip_name w).1 = Return true →
         ∃ before msg, trace (upload api path project zip_name w).2
                       = (before ++ [EvLog INFO msg])%list))
  ∧ (∀ project flow cron,
      ((schedule api project flow cron w).1 = Return false →
       ∃ before msg, trace (schedule api project flow cron w).2
                     = (before ++ [EvLog ERROR msg])%list)
      ∧ ((schedule api project flow cron w).1 = Return true →
         ∃ before msg, trace (schedule api project flow cron w).2
                       = (before ++ [EvLog INFO msg])%list))
  ∧ (∀ project flow,
      ((execute api project flow w).1 = Return false →
       ∃ before msg, trace (execute api project flow w).2
                     = (before ++ [EvLog ERROR msg])%list)
      ∧ ((execute api project flow w).1 = Return true →
         ∃ before msg, trace (execute api project flow w).2
                       = (before ++ [EvLog INFO msg])%list)).
Proof.
  split_and!; intros; split; py_run.
  all: try (destruct (truthy (__session_id (self w)));
            cbn -[lookup elem_of union difference singleton]).
  all: try (destruct (supplied project), (supplied zip_name);
            cbn -[lookup elem_of union difference singleton]).
  all: py_cases; py_known; py_cases; intros; py_last.
Qed.

(** X21. [upload], [schedule] and [execute] only read the session: whatever
    the state, the arguments and the server, and whether they return or
    raise, the stored host and session id are the same after the call. *)
Theorem guarded_operations_never_write_session (api : request → reply)
    (w : world) :
  (∀ path project zip_name,
      self (upload api path project zip_name w).2 = self w)
  ∧ (∀ project flow cron,
      self (schedule api project flow cron w).2 = self w)
  ∧ (∀ project flow,
      self (execute api project flow w).2 = self w).
Proof.
  split_and!; intros;
    [apply upload_keeps_session|apply schedule_keeps_session
    |apply execute_keeps_session].
Qed.



(** X23. A call only ever adds to what has happened, and it talks to the
    server at most once: the trace after any public call is the trace before
    followed by new events, of which at most one is a request. *)
Theorem one_request_per_call (api : request → reply) (c : call) (w : world) :
  ∃ es : list event,
    trace (run api c w) = (trace w ++ es)%list
    ∧ List.length (requests_of es) ≤ 1.
Proof.
  destruct c as [ |host sid| |host user password|path project zip_name
                |project flow cron|project flow]; cbn [run]; py_run.
  all: try (destruct (truthy (__session_id (self w)));
            cbn -[lookup elem_of union difference singleton]).
  all: try (destruct (supplied project), (supplied zip_name);
            cbn -[lookup elem_of union difference singleton]).
  all: py_cases; py_known; py_cases.
  all: eexists; split;
    [rewrite <- ?app_assoc; first [reflexivity | symmetry; apply app_nil_r]
    |cbn; lia].
Qed.
